(** * roboticstoolbox.backend.VPython.stl

    A shallow embedding of [import_object_from_numpy_stl] and
    [set_stl_origin] (src/roboticstoolbox/backend/VPython/stl.py).

    Python floats are binary64 numbers: they are Rocq's primitive floats.
    vpython objects are mutable and shared by reference: the scene is a store
    of objects addressed by handles, and the two functions are programs of a
    state-and-exception monad over that store.

    Of the rendering library the model keeps what the module relies on: the
    standard attributes of an object (position, axis, up, size, visibility),
    the members of a group, and the keyword arguments of the grouping
    constructor.  A group's origin is the vector its position is, so it moves
    with the position.  The grouping constructor hides the objects it groups.
    What the library computes is a parameter of the development: the axis, up
    vector and extents it gives a new group, the axis it leaves a group with
    when the group's length is assigned, and what it does with an empty
    list. *)

From Stdlib Require Import Floats.PrimFloat.
From stdpp Require Import base list strings.

Set Default Proof Using "Type".
Local Open Scope string_scope.
Local Open Scope list_scope.

(** ** vpython vectors *)

Record vector := vec { vec_x : float; vec_y : float; vec_z : float }.

(** [vector.__add__] and [vector.__sub__]: component-wise binary64
    arithmetic. *)
Definition vector_add (a b : vector) : vector :=
  vec (vec_x a + vec_x b)%float (vec_y a + vec_y b)%float (vec_z a + vec_z b)%float.

Definition vector_sub (a b : vector) : vector :=
  vec (vec_x a - vec_x b)%float (vec_y a - vec_y b)%float (vec_z a - vec_z b)%float.

Module color.
(** [vpython.color.white] *)
Definition white : vector := vec 1%float 1%float 1%float.
End color.

(** ** numpy-stl meshes *)

(** A fixed row of three entries, indexed [[0]], [[1]], [[2]]. *)
Record Row (A : Type) := row { at0 : A; at1 : A; at2 : A }.
Arguments row {A} _ _ _.
Arguments at0 {A} _.
Arguments at1 {A} _.
Arguments at2 {A} _.

(** [stl.mesh.Mesh]: [vectors] is an N x 3 x 3 array (three points per
    face), [normals] an N x 3 array (one normal per face). *)
Record Mesh := { vectors : list (Row (Row float)); normals : list (Row float) }.

(** What the parser guarantees of a mesh it returns: one normal per face. *)
Definition well_formed (m : Mesh) : Prop := length (normals m) = length (vectors m).

(** ** Poses and mesh descriptors *)

Record SE3 := { pose_pos : vector; pose_x : vector; pose_y : vector; pose_z : vector }.

(** Modelled from the spec: [get_pose_pos], [get_pose_x_vec], [get_pose_y_vec]
    and [get_pose_z_vec] of common_functions, which is not part of the sources
    at hand.  The spec describes a pose as a position and three axis vectors. *)
Definition get_pose_pos (T : SE3) : vector := pose_pos T.
Definition get_pose_x_vec (T : SE3) : vector := pose_x T.
Definition get_pose_y_vec (T : SE3) : vector := pose_y T.
Definition get_pose_z_vec (T : SE3) : vector := pose_z T.

(** Modelled from the spec: [x_axis_vector] of common_functions, the
    coordinate system's canonical x-axis. *)
Definition x_axis_vector : vector := vec 1%float 0%float 0%float.

(** [meshdata]: the list [[path, scales, origin]]; the fields are
    [meshdata[0]], [meshdata[1]] and [meshdata[2]]. *)
Record MeshData := { meshdata_0 : string; meshdata_1 : Row float; meshdata_2 : SE3 }.

(** ** The scene: a store of vpython objects *)

(** An object is known by its handle, a canvas by its number. *)
Abbreviation Handle := nat (only parsing).
Abbreviation Canvas := nat (only parsing).

Record vertex := mk_vertex { vertex_pos : vector; vertex_normal : vector; vertex_color : vector }.

Inductive Geometry :=
| Triangle_of (vs : list vertex)
| Compound_of (objList : list Handle).

(** The attributes every vpython object carries, and the attributes the
    caller attached to it under names of its own. *)
Record Object := mk_object {
  obj_canvas : Canvas;
  obj_geometry : Geometry;
  obj_pos : vector;
  obj_axis : vector;
  obj_up : vector;
  obj_size : vector;
  obj_visible : bool;
  obj_attrs : list (string * vector)
}.

(** [origin] of a group.  The library keeps one vector for a group's origin
    and its position: reading the origin reads the position, and assigning
    the position moves the origin. *)
Definition obj_origin (o : Object) : vector := obj_pos o.

(** Python exceptions: class name and message. *)
Record Exn := mk_exn { exn_class : string; exn_msg : string }.

(** [objects]: every object created so far, in creation order; the handle of
    an object is its index.  [reads]: the files the mesh parser was asked to
    read, in order. *)
Record World := mk_world { objects : list Object; reads : list string }.

(** ** The two collaborators *)

(** What the rendering library computes for a new group: its axis, its up
    vector and its extents (length, height, width). *)
Record Frame := { frame_axis : vector; frame_up : vector; frame_size : vector }.

(** The rendering library decides three things the module leaves to it:
    what the grouping constructor does with an empty list ([None]: it
    accepts); the frame it computes for a group from the scene, the grouped
    handles, and the origin, axis and up vectors it is given; and the axis a
    group has once its length is assigned (from the new length and the axis
    so far). *)
Record Renderer := {
  on_empty_group : option Exn;
  compound_frame : list Object -> list Handle -> vector -> vector -> vector -> Frame;
  length_axis : float -> vector -> vector
}.

(** vpython's [compound] raises on an empty list. *)
Definition vpython_on_empty : option Exn :=
  Some (mk_exn "IndexError" "list index out of range").

(** Keyword arguments of [compound]: the three this module passes by their
    standard names ([origin] in both of its calls), and those passed under
    any other name. *)
Record kwargs := {
  kw_origin : vector;
  kw_axis : option vector;
  kw_up : option vector;
  kw_other : list (string * vector)
}.

(** ** The state-and-exception monad *)

Definition M (A : Type) : Type := World -> (Exn + A) * World.

Definition ret {A} (a : A) : M A := fun w => (inr a, w).

Definition raise {A} (e : Exn) : M A := fun w => (inl e, w).

Definition bind {A B} (m : M A) (k : A -> M B) : M B :=
  fun w => match m w with
           | (inr a, w') => k a w'
           | (inl e, w') => (inl e, w')
           end.

Declare Scope py_scope.
Delimit Scope py_scope with py.
Notation "x <- m ;; k" := (bind m (fun x => k))
  (at level 100, m at next level, right associativity) : py_scope.
Notation "m ;;; k" := (bind m (fun _ => k))
  (at level 100, right associativity) : py_scope.
Local Open Scope py_scope.

(** [for i in idx: s = body(i, s)] *)
Fixpoint for_range {S : Type} (idx : list nat) (body : nat -> S -> M S) (s : S) : M S :=
  match idx with
  | [] => ret s
  | i :: rest => s' <- body i s ;; for_range rest body s'
  end.

(** [a[i]] on a sequence *)
Definition getitem {A} (a : list A) (i : nat) : M A :=
  match a !! i with
  | Some v => ret v
  | None => raise (mk_exn "IndexError" "index out of bounds")
  end.

(** ** Object attributes *)

Definition set_pos (v : vector) (o : Object) : Object :=
  mk_object (obj_canvas o) (obj_geometry o) v (obj_axis o) (obj_up o)
            (obj_size o) (obj_visible o) (obj_attrs o).

Definition set_visible (b : bool) (o : Object) : Object :=
  mk_object (obj_canvas o) (obj_geometry o) (obj_pos o) (obj_axis o) (obj_up o)
            (obj_size o) b (obj_attrs o).

Definition set_size (v : vector) (o : Object) : Object :=
  mk_object (obj_canvas o) (obj_geometry o) (obj_pos o) (obj_axis o) (obj_up o)
            v (obj_visible o) (obj_attrs o).

Definition set_axis (v : vector) (o : Object) : Object :=
  mk_object (obj_canvas o) (obj_geometry o) (obj_pos o) v (obj_up o)
            (obj_size o) (obj_visible o) (obj_attrs o).

(** [length], [height] and [width] are the three components of [size]. *)
Definition obj_length (o : Object) : float := vec_x (obj_size o).
Definition obj_height (o : Object) : float := vec_y (obj_size o).
Definition obj_width (o : Object) : float := vec_z (obj_size o).

(** Assigning the length sets the first component of the size, and leaves
    the axis to the library. *)
Definition set_length (R : Renderer) (v : float) (o : Object) : Object :=
  set_axis (length_axis R v (obj_axis o))
    (set_size (vec v (vec_y (obj_size o)) (vec_z (obj_size o))) o).
Definition set_height (v : float) (o : Object) : Object :=
  set_size (vec (vec_x (obj_size o)) v (vec_z (obj_size o))) o.
Definition set_width (v : float) (o : Object) : Object :=
  set_size (vec (vec_x (obj_size o)) (vec_y (obj_size o)) v) o.

Definition dangling : Exn := mk_exn "ReferenceError" "no such object".

(** [h.attr] *)
Definition getattr {A} (attr : Object -> A) (h : Handle) : M A :=
  fun w => match objects w !! h with
           | Some o => (inr (attr o), w)
           | None => (inl dangling, w)
           end.

(** [h.attr = v], as the update [upd] of the object behind [h] *)
Definition setattr (upd : Object -> Object) (h : Handle) : M unit :=
  fun w => match objects w !! h with
           | Some o => (inr tt, mk_world (<[h := upd o]> (objects w)) (reads w))
           | None => (inl dangling, w)
           end.

(** A new object enters the scene; its handle is the next index. *)
Definition alloc (o : Object) : M Handle :=
  fun w => (inr (length (objects w)), mk_world (objects w ++ [o]) (reads w)).

(** The objects behind the handles [hs] become invisible. *)
Definition hide_all (hs : list Handle) (objs : list Object) : list Object :=
  foldr (fun h acc => alter (set_visible false) h acc) objs hs.

Section Program.

(** [mesh.Mesh.from_file]: the parser, a function of the path. *)
Variable from_file : string -> Exn + Mesh.
Variable R : Renderer.

Definition Mesh_from_file (filename : string) : M Mesh :=
  fun w => (from_file filename, mk_world (objects w) (reads w ++ [filename])).

(** [triangle(canvas=scene, vs=vertices)].  The standard attributes keep
    the library's defaults. *)
Definition triangle (canvas : Canvas) (vs : list vertex) : M Handle :=
  alloc (mk_object canvas (Triangle_of vs)
           (vec 0%float 0%float 0%float) (vec 1%float 0%float 0%float)
           (vec 0%float 1%float 0%float) (vec 1%float 1%float 1%float) true []).

(** [compound(objList, canvas=canvas, **kwargs)].  The new group sits at
    its origin; the library computes its axis, up vector and extents from the
    keywords, where an axis or up vector that is not given counts as the
    x-axis and the y-axis.  A keyword the constructor does not know becomes
    an attribute of that name on the new object.  The grouped objects are
    hidden. *)
Definition compound (objList : list Handle) (kw : kwargs) (canvas : Canvas) : M Handle :=
  match objList, on_empty_group R with
  | [], Some e => raise e
  | _, _ =>
      fun w =>
        let origin := kw_origin kw in
        let axis := default (vec 1%float 0%float 0%float) (kw_axis kw) in
        let up := default (vec 0%float 1%float 0%float) (kw_up kw) in
        let f := compound_frame R (objects w) objList origin axis up in
        alloc (mk_object canvas (Compound_of objList) origin
                 (frame_axis f) (frame_up f) (frame_size f) true (kw_other kw))
              (mk_world (hide_all objList (objects w)) (reads w))
  end.

(** Lines 38-71: the body of the loop over the faces. *)
Definition face_body (the_mesh : Mesh) (scene : Canvas)
    (face : nat) (triangles : list Handle) : M (list Handle) :=
  v0 <- getitem (vectors the_mesh) face ;;
  let point0 := at0 v0 in
  v1 <- getitem (vectors the_mesh) face ;;
  let point1 := at1 v1 in
  v2 <- getitem (vectors the_mesh) face ;;
  let point2 := at2 v2 in
  n0 <- getitem (normals the_mesh) face ;;
  let normal0 := at0 n0 in
  n1 <- getitem (normals the_mesh) face ;;
  let normal1 := at1 n1 in
  n2 <- getitem (normals the_mesh) face ;;
  let normal2 := at2 n2 in
  let normal := vec normal0 normal1 normal2 in
  let vertex0 := mk_vertex (vec (at0 point0) (at1 point0) (at2 point0)) normal color.white in
  let vertex1 := mk_vertex (vec (at0 point1) (at1 point1) (at2 point1)) normal color.white in
  let vertex2 := mk_vertex (vec (at0 point2) (at1 point2) (at2 point2)) normal color.white in
  let vertices := [vertex0; vertex1; vertex2] in
  t <- triangle scene vertices ;;
  ret (triangles ++ [t]).

(** Lines 23-80: parse, build the triangles, group them. *)
Definition import_grouped (meshdata : MeshData) (scene : Canvas) : M Handle :=
  let filename := meshdata_0 meshdata in
  let origin := meshdata_2 meshdata in
  let origin_pos := get_pose_pos origin in
  let origin_x := get_pose_x_vec origin in
  let origin_y := get_pose_y_vec origin in
  let origin_z := get_pose_z_vec origin in
  the_mesh <- Mesh_from_file filename ;;
  let num_faces := length (vectors the_mesh) in
  triangles <- for_range (seq 0 num_faces) (face_body the_mesh scene) [] ;;
  compound triangles
    {| kw_origin := origin_pos; kw_axis := Some origin_x;
       kw_up := Some origin_y; kw_other := [] |} scene.

(** Lines 81-83: [visual_mesh.length *= scale[0]] and the two like it. *)
Definition rescale (visual_mesh : Handle) (scale : Row float) : M unit :=
  l <- getattr obj_length visual_mesh ;;
  setattr (set_length R (l * at0 scale)%float) visual_mesh ;;;
  h <- getattr obj_height visual_mesh ;;
  setattr (set_height (h * at1 scale)%float) visual_mesh ;;;
  wd <- getattr obj_width visual_mesh ;;
  setattr (set_width (wd * at2 scale)%float) visual_mesh.

Definition import_object_from_numpy_stl (meshdata : MeshData) (scene : Canvas) : M Handle :=
  let scale := meshdata_1 meshdata in
  visual_mesh <- import_grouped meshdata scene ;;
  rescale visual_mesh scale ;;;
  ret visual_mesh.

Definition set_stl_origin (stl_obj : Handle)
    (current_obj_origin required_obj_origin : vector) (scene : Canvas) : M Handle :=
  let movement := vector_sub required_obj_origin current_obj_origin in
  p <- getattr obj_pos stl_obj ;;
  setattr (set_pos (vector_add p movement)) stl_obj ;;;
  setattr (set_visible false) stl_obj ;;;
  compound [stl_obj]
    {| kw_origin := vec 0%float 0%float 0%float; kw_axis := None;
       kw_up := None; kw_other := [("vector", x_axis_vector)] |} scene.

End Program.

(** ** A concrete parser and renderer, for running the programs *)

Definition fmin (a b : float) : float := if (a <? b)%float then a else b.
Definition fmax (a b : float) : float := if (a <? b)%float then b else a.
Definition vector_min (a b : vector) : vector :=
  vec (fmin (vec_x a) (vec_x b)) (fmin (vec_y a) (vec_y b)) (fmin (vec_z a) (vec_z b)).
Definition vector_max (a b : vector) : vector :=
  vec (fmax (vec_x a) (vec_x b)) (fmax (vec_y a) (vec_y b)) (fmax (vec_z a) (vec_z b)).
Definition vector_half (a : vector) : vector :=
  vec (vec_x a / 2)%float (vec_y a / 2)%float (vec_z a / 2)%float.

(** The points an object contributes to the box around a group: the corners
    of a triangle, the two extreme corners of a group. *)
Definition corners (o : Object) : list vector :=
  match obj_geometry o with
  | Triangle_of vs => map vertex_pos vs
  | Compound_of _ =>
      [vector_sub (obj_pos o) (vector_half (obj_size o));
       vector_add (obj_pos o) (vector_half (obj_size o))]
  end.

(** An axis-aligned bounding box stands for the extents the renderer
    computes. *)
Definition box_extents (objs : list Object) (hs : list Handle) : vector :=
  let pts := concat (map (fun h => from_option corners [] (objs !! h)) hs) in
  match pts with
  | [] => vec 0%float 0%float 0%float
  | p :: ps => vector_sub (foldr vector_max p ps) (foldr vector_min p ps)
  end.

(** [vector.mag], [vector.norm] and the product of a number and a vector. *)
Definition vector_mag (a : vector) : float :=
  sqrt (vec_x a * vec_x a + vec_y a * vec_y a + vec_z a * vec_z a)%float.
Definition vector_norm (a : vector) : vector :=
  let m := vector_mag a in
  if (0 <? m)%float then vec (vec_x a / m)%float (vec_y a / m)%float (vec_z a / m)%float
  else vec 0%float 0%float 0%float.
Definition vector_rmul (k : float) (a : vector) : vector :=
  vec (k * vec_x a)%float (k * vec_y a)%float (k * vec_z a)%float.

(** vpython gives a new group the axis [size.x * norm(axis)], and keeps the
    up vector it is given. *)
Definition box_frame (objs : list Object) (hs : list Handle)
    (origin axis up : vector) : Frame :=
  let size := box_extents objs hs in
  {| frame_axis := vector_rmul (vec_x size) (vector_norm axis);
     frame_up := up;
     frame_size := size |}.

(** vpython's length setter: a length of zero makes the axis the zero
    vector. *)
Definition zero_length_axis (v : float) (axis : vector) : vector :=
  if (v =? 0)%float then vec 0%float 0%float 0%float else axis.

Definition vpython_renderer : Renderer :=
  {| on_empty_group := vpython_on_empty; compound_frame := box_frame;
     length_axis := zero_length_axis |}.

(** A renderer that accepts the empty group. *)
Definition lenient_renderer : Renderer :=
  {| on_empty_group := None; compound_frame := box_frame;
     length_axis := zero_length_axis |}.

(** The unit square of two faces, in the plane z = 0. *)
Definition unit_square : Mesh :=
  let p x y := row x%float y%float 0%float in
  {| vectors := [row (p 0 0) (p 1 0) (p 1 1); row (p 0 0) (p 1 1) (p 0 1)]%float;
     normals := [row 0 0 1; row 0 0 1]%float |}.

Definition empty_mesh : Mesh := {| vectors := []; normals := [] |}.

Definition sample_files (path : string) : Exn + Mesh :=
  if String.eqb path "square.stl" then inr unit_square
  else if String.eqb path "empty.stl" then inr empty_mesh
  else inl (mk_exn "FileNotFoundError" path).

Definition identity_pose : SE3 :=
  {| pose_pos := vec 0 0 0; pose_x := vec 1 0 0; pose_y := vec 0 1 0; pose_z := vec 0 0 1 |}%float.

Definition empty_world : World := mk_world [] [].

(** ** Derived definitions: the objects and scenes the programs build *)

(** The triangle the loop creates for a face with points [pts] and normal
    [nrm]. *)
Definition face_object (scene : Canvas) (pts : Row (Row float)) (nrm : Row float) : Object :=
  let normal := vec (at0 nrm) (at1 nrm) (at2 nrm) in
  let corner (p : Row float) := mk_vertex (vec (at0 p) (at1 p) (at2 p)) normal color.white in
  mk_object scene (Triangle_of [corner (at0 pts); corner (at1 pts); corner (at2 pts)])
    (vec 0%float 0%float 0%float) (vec 1%float 0%float 0%float)
    (vec 0%float 1%float 0%float) (vec 1%float 1%float 1%float) true [].

(** The number of triangles among the objects of a scene. *)
Definition is_triangle (o : Object) : bool :=
  match obj_geometry o with Triangle_of _ => true | Compound_of _ => false end.

Definition count_triangles (objs : list Object) : nat :=
  length (filter (fun o => is_triangle o = true) objs).

(** The triangles of a mesh, in face order. *)
Definition mesh_triangles (scene : Canvas) (m : Mesh) : list Object :=
  zip_with (face_object scene) (vectors m) (normals m).

(** The world in which the grouping constructor is called. *)
Definition world_with_triangles (meshdata : MeshData) (scene : Canvas)
    (m : Mesh) (w : World) : World :=
  mk_world (objects w ++ mesh_triangles scene m) (reads w ++ [meshdata_0 meshdata]).

(** The keyword arguments of the import's call of [compound]. *)
Definition import_kwargs (meshdata : MeshData) : kwargs :=
  {| kw_origin := pose_pos (meshdata_2 meshdata);
     kw_axis := Some (pose_x (meshdata_2 meshdata));
     kw_up := Some (pose_y (meshdata_2 meshdata)); kw_other := [] |}.

(** The object the grouping constructor creates in a scene holding [objs]. *)
Definition group_object (R : Renderer) (objs : list Object) (objList : list Handle)
    (kw : kwargs) (canvas : Canvas) : Object :=
  let origin := kw_origin kw in
  let axis := default (vec 1%float 0%float 0%float) (kw_axis kw) in
  let up := default (vec 0%float 1%float 0%float) (kw_up kw) in
  let f := compound_frame R objs objList origin axis up in
  mk_object canvas (Compound_of objList) origin
    (frame_axis f) (frame_up f) (frame_size f) true (kw_other kw).

(** An object after the three in-place multiplications. *)
Definition scaled (R : Renderer) (scale : Row float) (o : Object) : Object :=
  set_axis (length_axis R (obj_length o * at0 scale)%float (obj_axis o))
    (set_size (vec (obj_length o * at0 scale)%float (obj_height o * at1 scale)%float
                   (obj_width o * at2 scale)%float) o).

(** The triangles of a mesh once they are grouped: hidden. *)
Definition hidden_triangles (scene : Canvas) (m : Mesh) : list Object :=
  set_visible false <$> mesh_triangles scene m.

(** An object after the two assignments of [set_stl_origin]. *)
Definition moved (movement : vector) (o : Object) : Object :=
  set_visible false (set_pos (vector_add (obj_pos o) movement) o).

(** The keyword arguments of the relocation's call of [compound]. *)
Definition relocate_kwargs : kwargs :=
  {| kw_origin := vec 0%float 0%float 0%float; kw_axis := None;
     kw_up := None; kw_other := [("vector", x_axis_vector)] |}.

(** Descriptors of the sample files: scale (2, 1, 1), pose at the origin
    with the canonical axes. *)
Definition square_data : MeshData :=
  {| meshdata_0 := "square.stl"; meshdata_1 := row 2 1 1; meshdata_2 := identity_pose |}%float.

Definition empty_data : MeshData :=
  {| meshdata_0 := "empty.stl"; meshdata_1 := row 2 1 1; meshdata_2 := identity_pose |}%float.

Definition missing_data : MeshData :=
  {| meshdata_0 := "missing.stl"; meshdata_1 := row 2 1 1; meshdata_2 := identity_pose |}%float.

(** The scene after importing the unit square: two triangles (handles 0 and
    1) and their group (handle 2). *)
Definition square_world : World :=
  snd (import_object_from_numpy_stl sample_files vpython_renderer square_data 7 empty_world).

(** The identity pose but for its z-axis. *)
Definition tilted_pose : SE3 :=
  {| pose_pos := vec 0 0 0; pose_x := vec 1 0 0; pose_y := vec 0 1 0; pose_z := vec 0 1 1 |}%float.

Definition tilted_square_data : MeshData :=
  {| meshdata_0 := "square.stl"; meshdata_1 := row 2 1 1; meshdata_2 := tilted_pose |}%float.

(** [h.pos] in a scene, when [h] is an object of it. *)
Definition position_of (w : World) (h : Handle) : option vector :=
  obj_pos <$> objects w !! h.

(** [vector.__eq__]: the components compare equal as floats. *)
Definition vector_eqb (a b : vector) : bool :=
  (vec_x a =? vec_x b)%float && (vec_y a =? vec_y b)%float && (vec_z a =? vec_z b)%float.

Local Set Warnings "-inexact-float".

(** The unit square imported at (0.5, 0, 0). *)
Definition offset_square_world : World :=
  snd (import_object_from_numpy_stl sample_files vpython_renderer
         {| meshdata_0 := "square.stl"; meshdata_1 := row 1 1 1;
            meshdata_2 := {| pose_pos := vec 0.5 0 0; pose_x := vec 1 0 0;
                             pose_y := vec 0 1 0; pose_z := vec 0 0 1 |} |}%float
         7 empty_world).

(** The handles an object groups: none for a triangle. *)
Definition members_of (o : Object) : list Handle :=
  match obj_geometry o with
  | Triangle_of _ => []
  | Compound_of objList => objList
  end.

(** A scene is well-formed when every group refers to objects created
    before it: no handle dangles and no group contains itself, directly or
    through other groups. *)
Definition scene_ok (objs : list Object) : Prop :=
  forall i o, objs !! i = Some o -> Forall (fun h => h < i) (members_of o).

(** The same, of objects appended to a scene of [n] objects. *)
Definition tail_ok (n : nat) (tail : list Object) : Prop :=
  forall i o, tail !! i = Some o -> Forall (fun h => h < n + i) (members_of o).

(** ** How the programs run *)

Lemma bind_inr {A B} (m : M A) (k : A -> M B) w a w' :
  m w = (inr a, w') -> bind m k w = k a w'.
Proof. intros H. unfold bind. now rewrite H. Qed.

Lemma bind_inl {A B} (m : M A) (k : A -> M B) w e w' :
  m w = (inl e, w') -> bind m k w = (inl e, w').
Proof. intros H. unfold bind. now rewrite H. Qed.

Lemma getitem_Some {A} (a : list A) i v w :
  a !! i = Some v -> getitem a i w = (inr v, w).
Proof. intros H. unfold getitem. now rewrite H. Qed.

Lemma getattr_Some {A} (attr : Object -> A) h o w :
  objects w !! h = Some o -> getattr attr h w = (inr (attr o), w).
Proof. intros H. unfold getattr. now rewrite H. Qed.

Lemma setattr_Some upd h o w :
  objects w !! h = Some o ->
  setattr upd h w = (inr tt, mk_world (<[h := upd o]> (objects w)) (reads w)).
Proof. intros H. unfold setattr. now rewrite H. Qed.

Section Runs.

Variable from_file : string -> Exn + Mesh.
Variable R : Renderer.

Lemma face_body_run m scene face acc w pts nrm :
  vectors m !! face = Some pts ->
  normals m !! face = Some nrm ->
  face_body m scene face acc w
  = (inr (acc ++ [length (objects w)]),
     mk_world (objects w ++ [face_object scene pts nrm]) (reads w)).
Proof.
  intros Hv Hn. unfold face_body.
  do 3 (erewrite bind_inr by (apply getitem_Some; exact Hv)).
  do 3 (erewrite bind_inr by (apply getitem_Some; exact Hn)).
  reflexivity.
Qed.

(** The loop over the faces [k, k+n): it cannot fail on a well-formed mesh,
    and it appends one triangle per face, in order. *)
Lemma faces_loop m scene n : forall k acc w,
  k + n <= length (vectors m) ->
  well_formed m ->
  for_range (seq k n) (face_body m scene) acc w
  = (inr (acc ++ seq (length (objects w)) n),
     mk_world (objects w ++ zip_with (face_object scene)
                 (take n (drop k (vectors m))) (take n (drop k (normals m))))
              (reads w)).
Proof.
  induction n as [|n IH]; intros k acc w Hk Hwf.
  - cbn. rewrite !app_nil_r. now destruct w.
  - assert (is_Some (vectors m !! k)) as [pts Hv] by (apply lookup_lt_is_Some; lia).
    assert (is_Some (normals m !! k)) as [nrm Hn]
      by (apply lookup_lt_is_Some; unfold well_formed in Hwf; lia).
    cbn [seq for_range].
    erewrite bind_inr by (eapply face_body_run; eassumption).
    rewrite (IH (S k)) by (assumption || lia).
    cbn [objects reads]. rewrite length_app. cbn [length].
    rewrite (drop_S _ _ _ Hv), (drop_S _ _ _ Hn). cbn [take zip_with].
    rewrite <- !app_assoc. cbn [app].
    replace (length (objects w) + 1) with (S (length (objects w))) by lia.
    reflexivity.
Qed.

Lemma length_mesh_triangles scene m :
  well_formed m -> length (mesh_triangles scene m) = length (vectors m).
Proof.
  intros Hwf. unfold mesh_triangles. rewrite length_zip_with.
  unfold well_formed in Hwf. lia.
Qed.

Lemma import_grouped_parsed meshdata scene w m :
  from_file (meshdata_0 meshdata) = inr m ->
  well_formed m ->
  import_grouped from_file R meshdata scene w
  = compound R (seq (length (objects w)) (length (vectors m)))
      (import_kwargs meshdata) scene (world_with_triangles meshdata scene m w).
Proof.
  intros Hparse Hwf. unfold import_grouped.
  erewrite bind_inr; [| unfold Mesh_from_file; rewrite Hparse; reflexivity].
  erewrite bind_inr; [| apply faces_loop; [cbn; lia | exact Hwf]].
  cbn [objects reads app]. rewrite !drop_0.
  rewrite !take_ge by (unfold well_formed in Hwf; lia).
  reflexivity.
Qed.

Lemma import_grouped_failed meshdata scene w e :
  from_file (meshdata_0 meshdata) = inl e ->
  import_grouped from_file R meshdata scene w
  = (inl e, mk_world (objects w) (reads w ++ [meshdata_0 meshdata])).
Proof.
  intros Hparse. unfold import_grouped.
  erewrite bind_inl; [reflexivity |].
  unfold Mesh_from_file. now rewrite Hparse.
Qed.

End Runs.

Lemma bind_inr_inv {A B} (m : M A) (k : A -> M B) w b w' :
  bind m k w = (inr b, w') -> exists a w1, m w = (inr a, w1) /\ k a w1 = (inr b, w').
Proof.
  unfold bind. destruct (m w) as [[e|a] w1]; intros H; [discriminate | eauto].
Qed.

(** *** Hiding the members of a group *)

Lemma length_hide_all hs objs : length (hide_all hs objs) = length objs.
Proof.
  induction hs as [|h hs IH]; [reflexivity |].
  cbn [hide_all foldr]. now rewrite length_alter.
Qed.

Lemma lookup_hide_all hs objs j :
  hide_all hs objs !! j
  = if decide (j ∈ hs) then set_visible false <$> objs !! j else objs !! j.
Proof.
  induction hs as [|h hs IH].
  - cbn. case_decide as Hin; [| reflexivity]. now apply elem_of_nil in Hin.
  - cbn [hide_all foldr]. fold (hide_all hs objs).
    destruct (decide (h = j)) as [->|Hne].
    + rewrite list_lookup_alter_eq, IH.
      rewrite (decide_True (P := j ∈ j :: hs)) by (apply elem_of_cons; now left).
      case_decide; [| reflexivity]. now destruct (objs !! j).
    + rewrite list_lookup_alter_ne by exact Hne. rewrite IH.
      destruct (decide (j ∈ hs)) as [Hin|Hnin].
      * rewrite (decide_True (P := j ∈ h :: hs)) by (apply elem_of_cons; now right).
        reflexivity.
      * rewrite (decide_False (P := j ∈ h :: hs)); [reflexivity |].
        rewrite elem_of_cons. intros [->|?]; [now apply Hne | now apply Hnin].
Qed.

(** Hiding objects that are hidden changes nothing. *)
Lemma hide_all_hidden h objs o :
  objs !! h = Some o -> obj_visible o = false -> hide_all [h] objs = objs.
Proof.
  intros Ho Hv. apply list_eq. intros j. rewrite lookup_hide_all.
  case_decide as Hin; [| reflexivity].
  apply list_elem_of_singleton in Hin as ->. rewrite Ho. cbn.
  f_equal. destruct o; cbn in *. now subst.
Qed.

(** Hiding the objects appended to a scene leaves the scene as it was. *)
Lemma hide_all_app_seq l t :
  hide_all (seq (length l) (length t)) (l ++ t) = l ++ (set_visible false <$> t).
Proof.
  apply list_eq. intros j. rewrite lookup_hide_all.
  case_decide as Hin.
  - apply elem_of_seq in Hin.
    rewrite !lookup_app_r by lia. now rewrite list_lookup_fmap.
  - rewrite elem_of_seq in Hin.
    destruct (decide (j < length l)) as [Hlt|Hge].
    + now rewrite !lookup_app_l by lia.
    + rewrite !lookup_ge_None_2; [reflexivity | |];
        rewrite length_app, ?length_fmap; lia.
Qed.

Lemma hide_all_app_ge l tail hs :
  Forall (fun h => length l <= h) hs ->
  hide_all hs (l ++ tail) = l ++ hide_all ((fun h => h - length l) <$> hs) tail.
Proof.
  induction 1 as [|h hs Hh _ IH]; [reflexivity |].
  cbn [hide_all foldr fmap list_fmap]. fold (hide_all hs (l ++ tail)).
  fold (hide_all ((fun h => h - length l) <$> hs) tail).
  rewrite IH. now apply alter_app_r_alt.
Qed.

Section Collaborator.

Variable R : Renderer.

Lemma compound_accepted objList kw canvas w :
  objList <> [] \/ on_empty_group R = None ->
  compound R objList kw canvas w
  = (inr (length (objects w)),
     mk_world (hide_all objList (objects w) ++ [group_object R (objects w) objList kw canvas])
              (reads w)).
Proof.
  intros Hok. unfold compound, group_object, alloc.
  destruct objList as [|h l], (on_empty_group R) as [e|] eqn:He;
    try (destruct Hok; congruence);
    cbv zeta; cbn [objects reads]; now rewrite length_hide_all.
Qed.

Lemma compound_rejected kw canvas w e :
  on_empty_group R = Some e -> compound R [] kw canvas w = (inl e, w).
Proof. intros He. unfold compound. now rewrite He. Qed.

(** Whatever the grouping constructor returns is a fresh handle to the
    object it has just added. *)
Lemma compound_inr objList kw canvas w h w' :
  compound R objList kw canvas w = (inr h, w') ->
  h = length (objects w) /\
  w' = mk_world (hide_all objList (objects w)
                   ++ [group_object R (objects w) objList kw canvas]) (reads w).
Proof.
  intros H.
  destruct (decide (objList = [])) as [->|Hne].
  - destruct (on_empty_group R) as [e|] eqn:He.
    + rewrite (compound_rejected _ _ _ _ He) in H. discriminate.
    + rewrite compound_accepted in H by now right. now inversion H.
  - rewrite compound_accepted in H by now left. now inversion H.
Qed.

Lemma compound_inl objList kw canvas w e w' :
  compound R objList kw canvas w = (inl e, w') ->
  w' = w /\ objList = [] /\ on_empty_group R = Some e.
Proof.
  intros H.
  destruct (decide (objList = [])) as [->|Hne].
  - destruct (on_empty_group R) as [e0|] eqn:He.
    + rewrite (compound_rejected _ _ _ _ He) in H. now inversion H.
    + rewrite compound_accepted in H by now right. discriminate.
  - rewrite compound_accepted in H by now left. discriminate.
Qed.

Lemma rescale_run h scale o w :
  objects w !! h = Some o ->
  rescale R h scale w = (inr tt, mk_world (<[h := scaled R scale o]> (objects w)) (reads w)).
Proof.
  intros Ho. pose proof (lookup_lt_Some _ _ _ Ho) as Hlt. unfold rescale.
  erewrite bind_inr by (apply getattr_Some; exact Ho).
  erewrite bind_inr by (apply setattr_Some; exact Ho).
  cbn [objects reads].
  erewrite bind_inr
    by (apply getattr_Some; cbn [objects]; apply list_lookup_insert_eq; exact Hlt).
  erewrite bind_inr
    by (apply setattr_Some; cbn [objects]; apply list_lookup_insert_eq; exact Hlt).
  cbn [objects reads]. rewrite list_insert_insert_eq.
  erewrite bind_inr
    by (apply getattr_Some; cbn [objects]; apply list_lookup_insert_eq; exact Hlt).
  erewrite setattr_Some by (cbn [objects]; apply list_lookup_insert_eq; exact Hlt).
  cbn [objects reads]. rewrite list_insert_insert_eq.
  reflexivity.
Qed.

Lemma set_stl_origin_run stl_obj cur req scene o w :
  objects w !! stl_obj = Some o ->
  set_stl_origin R stl_obj cur req scene w
  = (inr (length (objects w)),
     let objs := <[stl_obj := moved (vector_sub req cur) o]> (objects w) in
     mk_world (objs ++ [group_object R objs [stl_obj] relocate_kwargs scene]) (reads w)).
Proof.
  intros Ho. pose proof (lookup_lt_Some _ _ _ Ho) as Hlt. unfold set_stl_origin.
  erewrite bind_inr by (apply getattr_Some; exact Ho).
  erewrite bind_inr by (apply setattr_Some; exact Ho).
  erewrite bind_inr
    by (apply setattr_Some; cbn [objects]; apply list_lookup_insert_eq; exact Hlt).
  cbn [objects reads]. rewrite list_insert_insert_eq.
  rewrite compound_accepted by now left.
  cbn [objects reads]. rewrite length_insert.
  erewrite hide_all_hidden; [reflexivity | now apply list_lookup_insert_eq | reflexivity].
Qed.

Variable from_file : string -> Exn + Mesh.

(** The whole import on a parsed, well-formed mesh that the grouping
    constructor accepts. *)
Lemma import_run meshdata scene w m :
  from_file (meshdata_0 meshdata) = inr m ->
  well_formed m ->
  vectors m <> [] \/ on_empty_group R = None ->
  import_object_from_numpy_stl from_file R meshdata scene w
  = (inr (length (objects w) + length (vectors m)),
     let w1 := world_with_triangles meshdata scene m w in
     let members := seq (length (objects w)) (length (vectors m)) in
     mk_world (objects w ++ hidden_triangles scene m
                 ++ [scaled R (meshdata_1 meshdata)
                       (group_object R (objects w1) members (import_kwargs meshdata) scene)])
              (reads w1)).
Proof.
  intros Hparse Hwf Hok. unfold import_object_from_numpy_stl.
  assert (seq (length (objects w)) (length (vectors m)) <> [] \/ on_empty_group R = None)
    as Hok'.
  { destruct Hok as [Hne|He]; [left | now right].
    destruct (vectors m); [congruence | discriminate]. }
  erewrite bind_inr;
    [| rewrite (import_grouped_parsed from_file R _ _ _ _ Hparse Hwf);
       apply compound_accepted; exact Hok'].
  set (w1 := world_with_triangles meshdata scene m w).
  assert (hide_all (seq (length (objects w)) (length (vectors m))) (objects w1)
          = objects w ++ hidden_triangles scene m) as Hhide.
  { unfold w1, world_with_triangles, hidden_triangles. cbn [objects].
    rewrite <- (length_mesh_triangles scene m Hwf). apply hide_all_app_seq. }
  assert (length (objects w1) = length (objects w) + length (vectors m)) as Hlen.
  { unfold w1, world_with_triangles. cbn [objects].
    now rewrite length_app, length_mesh_triangles. }
  rewrite Hhide.
  assert (length (objects w ++ hidden_triangles scene m) = length (objects w1)) as Hlen'.
  { rewrite <- Hhide. apply length_hide_all. }
  erewrite bind_inr;
    [| apply rescale_run; cbn [objects]; apply list_lookup_middle; exact (eq_sym Hlen')].
  cbn [objects reads]. unfold ret. rewrite <- Hlen. f_equal. f_equal.
  rewrite insert_app_r_alt by lia. rewrite Hlen', Nat.sub_diag.
  cbn [insert list_insert]. now rewrite <- app_assoc.
Qed.

Lemma import_rejected meshdata scene w m e :
  from_file (meshdata_0 meshdata) = inr m ->
  well_formed m ->
  vectors m = [] ->
  on_empty_group R = Some e ->
  import_object_from_numpy_stl from_file R meshdata scene w
  = (inl e, mk_world (objects w) (reads w ++ [meshdata_0 meshdata])).
Proof.
  intros Hparse Hwf Hnil He. unfold import_object_from_numpy_stl.
  erewrite bind_inl; [reflexivity |].
  rewrite (import_grouped_parsed from_file R _ _ _ _ Hparse Hwf).
  unfold world_with_triangles, mesh_triangles. rewrite Hnil. cbn [length seq zip_with].
  rewrite app_nil_r. now apply compound_rejected.
Qed.

End Collaborator.

(** ** Properties of the import *)

Lemma is_triangle_face_object scene pts nrm : is_triangle (face_object scene pts nrm) = true.
Proof. reflexivity. Qed.

Lemma count_triangles_app l1 l2 :
  count_triangles (l1 ++ l2) = count_triangles l1 + count_triangles l2.
Proof. unfold count_triangles. now rewrite filter_app, length_app. Qed.

Lemma count_mesh_triangles scene m :
  count_triangles (mesh_triangles scene m) = length (mesh_triangles scene m).
Proof.
  unfold mesh_triangles, count_triangles.
  generalize (normals m). induction (vectors m) as [|pts vs IH]; intros [|nrm ns]; try reflexivity.
  cbn [zip_with]. rewrite filter_cons_True by apply is_triangle_face_object.
  cbn [length]. now rewrite IH.
Qed.

(** Hiding objects does not change which of them are triangles. *)
Lemma count_triangles_hidden l :
  count_triangles (set_visible false <$> l) = count_triangles l.
Proof.
  unfold count_triangles. induction l as [|o l IH]; [reflexivity |].
  cbn [fmap list_fmap]. fold (set_visible false <$> l).
  rewrite !filter_cons.
  change (is_triangle (set_visible false o)) with (is_triangle o).
  destruct (decide (is_triangle o = true)); cbn [length]; now rewrite IH.
Qed.

Lemma lookup_mesh_triangles scene m i pts nrm :
  vectors m !! i = Some pts -> normals m !! i = Some nrm ->
  mesh_triangles scene m !! i = Some (face_object scene pts nrm).
Proof.
  intros Hv Hn. unfold mesh_triangles. apply lookup_zip_with_Some. eauto.
Qed.

Lemma length_hidden_triangles scene m :
  well_formed m -> length (hidden_triangles scene m) = length (vectors m).
Proof.
  intros Hwf. unfold hidden_triangles. rewrite length_fmap.
  now apply length_mesh_triangles.
Qed.

(** What the import leaves in the scene, whether or not the grouping
    constructor accepts the triangles: the triangles, then at most the
    group. *)
Lemma import_objects from_file R meshdata scene w m :
  from_file (meshdata_0 meshdata) = inr m ->
  well_formed m ->
  exists tris tail,
    objects (snd (import_object_from_numpy_stl from_file R meshdata scene w))
    = objects w ++ tris ++ tail /\
    count_triangles tris = length (vectors m) /\
    count_triangles tail = 0 /\
    forall i pts nrm,
      vectors m !! i = Some pts -> normals m !! i = Some nrm ->
      exists o, tris !! i = Some o /\
                obj_canvas o = scene /\
                obj_geometry o = obj_geometry (face_object scene pts nrm).
Proof.
  intros Hparse Hwf.
  assert (count_triangles (mesh_triangles scene m) = length (vectors m)) as Hcount
    by now rewrite count_mesh_triangles, length_mesh_triangles.
  destruct (on_empty_group R) as [e|] eqn:He; [destruct (vectors m) as [|pts0 vs] eqn:Hv |].
  - rewrite (import_rejected R from_file _ _ _ _ e Hparse Hwf Hv He).
    exists (mesh_triangles scene m), []. cbn [snd objects].
    unfold mesh_triangles at 1. rewrite Hv. cbn [zip_with app].
    rewrite app_nil_r. repeat split; [exact Hcount |].
    intros i pts nrm Hpts. rewrite lookup_nil in Hpts. discriminate.
  - rewrite (import_run R from_file _ _ _ _ Hparse Hwf) by (left; congruence).
    eexists (hidden_triangles scene m), [_]. cbn [snd objects].
    split; [reflexivity |]. unfold hidden_triangles.
    rewrite count_triangles_hidden. repeat split; [exact Hcount |].
    intros i pts nrm Hpts Hnrm. exists (set_visible false (face_object scene pts nrm)).
    rewrite list_lookup_fmap.
    rewrite (lookup_mesh_triangles scene m i pts nrm) by (rewrite ?Hv; assumption).
    repeat split.
  - rewrite (import_run R from_file _ _ _ _ Hparse Hwf) by now right.
    eexists (hidden_triangles scene m), [_]. cbn [snd objects].
    split; [reflexivity |]. unfold hidden_triangles.
    rewrite count_triangles_hidden. repeat split; [exact Hcount |].
    intros i pts nrm Hpts Hnrm. exists (set_visible false (face_object scene pts nrm)).
    rewrite list_lookup_fmap.
    rewrite (lookup_mesh_triangles scene m i pts nrm) by assumption.
    repeat split.
Qed.

(** C1: on a well-formed mesh of F faces the import creates exactly F
    triangles; the i-th of them is made of the i-th face's three points, as
    they are and in their order, and its three vertices carry the face's one
    normal and the colour white. *)
Theorem import_one_triangle_per_face
    (from_file : string -> Exn + Mesh) (R : Renderer) (meshdata : MeshData)
    (scene : Canvas) (w : World) (m : Mesh) :
  from_file (meshdata_0 meshdata) = inr m ->
  well_formed m ->
  count_triangles (objects (snd (import_object_from_numpy_stl from_file R meshdata scene w)))
  = count_triangles (objects w) + length (vectors m) /\
  forall i pts nrm,
    vectors m !! i = Some pts ->
    normals m !! i = Some nrm ->
    exists o,
      objects (snd (import_object_from_numpy_stl from_file R meshdata scene w))
        !! (length (objects w) + i) = Some o /\
      obj_canvas o = scene /\
      obj_geometry o
      = Triangle_of
          [mk_vertex (vec (at0 (at0 pts)) (at1 (at0 pts)) (at2 (at0 pts)))
                     (vec (at0 nrm) (at1 nrm) (at2 nrm)) color.white;
           mk_vertex (vec (at0 (at1 pts)) (at1 (at1 pts)) (at2 (at1 pts)))
                     (vec (at0 nrm) (at1 nrm) (at2 nrm)) color.white;
           mk_vertex (vec (at0 (at2 pts)) (at1 (at2 pts)) (at2 (at2 pts)))
                     (vec (at0 nrm) (at1 nrm) (at2 nrm)) color.white].
Proof.
  intros Hparse Hwf.
  destruct (import_objects from_file R meshdata scene w m Hparse Hwf)
    as (tris & tail & -> & Htris & Htail & Hface).
  split.
  - rewrite !count_triangles_app, Htris, Htail. lia.
  - intros i pts nrm Hv Hn.
    destruct (Hface i pts nrm Hv Hn) as (o & Ho & Hcanvas & Hgeo).
    exists o. split; [| split; [exact Hcanvas | exact Hgeo]].
    rewrite lookup_app_r by lia.
    replace (length (objects w) + i - length (objects w)) with i by lia.
    now apply lookup_app_l_Some.
Qed.

Lemma import_one_triangle_per_face_witness :
  count_triangles
    (objects (snd (import_object_from_numpy_stl sample_files vpython_renderer
                     square_data 7 empty_world))) = 0 + 2.
Proof.
  exact (proj1 (import_one_triangle_per_face sample_files vpython_renderer
                  square_data 7 empty_world unit_square eq_refl eq_refl)).
Defined.

(** A handle returned by the grouping step is the last object of the
    scene. *)
Lemma import_grouped_inr from_file R meshdata scene w h w1 :
  import_grouped from_file R meshdata scene w = (inr h, w1) ->
  exists o, objects w1 !! h = Some o /\ h < length (objects w1).
Proof.
  unfold import_grouped. intros H.
  apply bind_inr_inv in H as (the_mesh & wa & _ & H).
  apply bind_inr_inv in H as (triangles & wb & _ & H).
  apply compound_inr in H as [-> ->]. cbn [objects].
  eexists. split.
  - apply list_lookup_middle. now rewrite length_hide_all.
  - rewrite length_app, length_hide_all. cbn. lia.
Qed.

(** C2: the scale is applied after the grouping, to the group's own length,
    height and width: each is the grouped object's value times the matching
    scale factor, whatever the mesh.  The object stays the group of the same
    members at the same place, and no other object of the scene changes. *)
Theorem import_scales_after_grouping
    (from_file : string -> Exn + Mesh) (R : Renderer) (meshdata : MeshData)
    (scene : Canvas) (w : World) (h : Handle) (w1 : World) :
  import_grouped from_file R meshdata scene w = (inr h, w1) ->
  exists o o',
    objects w1 !! h = Some o /\
    import_object_from_numpy_stl from_file R meshdata scene w
    = (inr h, mk_world (<[h := o']> (objects w1)) (reads w1)) /\
    obj_length o' = (obj_length o * at0 (meshdata_1 meshdata))%float /\
    obj_height o' = (obj_height o * at1 (meshdata_1 meshdata))%float /\
    obj_width o' = (obj_width o * at2 (meshdata_1 meshdata))%float /\
    obj_geometry o' = obj_geometry o /\
    obj_pos o' = obj_pos o.
Proof.
  intros Hg.
  destruct (import_grouped_inr _ _ _ _ _ _ _ Hg) as (o & Ho & _).
  exists o, (scaled R (meshdata_1 meshdata) o). split; [exact Ho |].
  split; [| repeat split].
  unfold import_object_from_numpy_stl.
  erewrite bind_inr by exact Hg.
  erewrite bind_inr by (apply rescale_run; exact Ho).
  reflexivity.
Qed.

Lemma import_scales_after_grouping_witness :
  exists o o',
    objects (snd (import_grouped sample_files vpython_renderer square_data 7 empty_world)) !! 2
    = Some o /\
    import_object_from_numpy_stl sample_files vpython_renderer square_data 7 empty_world
    = (inr 2,
       mk_world
         (<[2 := o']> (objects (snd (import_grouped sample_files vpython_renderer
                                       square_data 7 empty_world))))
         (reads (snd (import_grouped sample_files vpython_renderer
                        square_data 7 empty_world)))) /\
    obj_length o' = (obj_length o * 2)%float /\
    obj_height o' = (obj_height o * 1)%float /\
    obj_width o' = (obj_width o * 1)%float /\
    obj_geometry o' = obj_geometry o /\
    obj_pos o' = obj_pos o.
Proof.
  exact (import_scales_after_grouping sample_files vpython_renderer square_data 7
           empty_world 2 _ eq_refl).
Defined.

(** A failure of the grouping step is the failure of the import: no scale
    is applied to anything. *)
Lemma import_grouped_inl from_file R meshdata scene w e w1 :
  import_grouped from_file R meshdata scene w = (inl e, w1) ->
  import_object_from_numpy_stl from_file R meshdata scene w = (inl e, w1).
Proof. intros H. unfold import_object_from_numpy_stl. now rewrite (bind_inl _ _ _ _ _ H). Qed.

(** C7: the import groups the triangles by one call of the grouping
    constructor, made once all of them are in the scene: the list it passes
    holds their handles, all of them and in creation order, and the keywords
    are origin = the pose's position, axis = the pose's x-axis and up = the
    pose's y-axis.  A group is returned whenever the mesh has a face, or the
    renderer takes an empty group; the group returned has those members and
    its origin at the pose's position. *)
Theorem import_groups_all_triangles
    (from_file : string -> Exn + Mesh) (R : Renderer) (meshdata : MeshData)
    (scene : Canvas) (w : World) (m : Mesh) :
  from_file (meshdata_0 meshdata) = inr m ->
  well_formed m ->
  import_grouped from_file R meshdata scene w
  = compound R (seq (length (objects w)) (length (vectors m)))
      {| kw_origin := get_pose_pos (meshdata_2 meshdata);
         kw_axis := Some (get_pose_x_vec (meshdata_2 meshdata));
         kw_up := Some (get_pose_y_vec (meshdata_2 meshdata));
         kw_other := [] |}
      scene
      (mk_world (objects w ++ mesh_triangles scene m) (reads w ++ [meshdata_0 meshdata])) /\
  (vectors m <> [] \/ on_empty_group R = None ->
   exists h w', import_object_from_numpy_stl from_file R meshdata scene w = (inr h, w')) /\
  forall h w',
    import_object_from_numpy_stl from_file R meshdata scene w = (inr h, w') ->
    exists o,
      objects w' !! h = Some o /\
      obj_canvas o = scene /\
      obj_geometry o = Compound_of (seq (length (objects w)) (length (vectors m))) /\
      obj_origin o = get_pose_pos (meshdata_2 meshdata).
Proof.
  intros Hparse Hwf.
  assert (forall Hok : vectors m <> [] \/ on_empty_group R = None,
            forall h w',
              import_object_from_numpy_stl from_file R meshdata scene w = (inr h, w') ->
              exists o, objects w' !! h = Some o /\ obj_canvas o = scene /\
                obj_geometry o = Compound_of (seq (length (objects w)) (length (vectors m))) /\
                obj_origin o = get_pose_pos (meshdata_2 meshdata)) as Hrun.
  { intros Hok h w' H.
    rewrite (import_run R from_file _ _ _ _ Hparse Hwf Hok) in H.
    inversion H; subst h w'; clear H. cbv zeta. cbn [objects].
    eexists. split.
    - rewrite app_assoc. apply list_lookup_middle.
      now rewrite length_app, length_hidden_triangles.
    - repeat split. }
  split; [exact (import_grouped_parsed from_file R _ _ _ _ Hparse Hwf) |].
  split.
  - intros Hok. rewrite (import_run R from_file _ _ _ _ Hparse Hwf Hok). eauto.
  - intros h w' H.
    destruct (on_empty_group R) as [e|] eqn:He; [destruct (vectors m) as [|pts vs] eqn:Hv |].
    + rewrite (import_rejected R from_file _ _ _ _ e Hparse Hwf Hv He) in H. discriminate.
    + apply (Hrun ltac:(left; congruence)). exact H.
    + apply (Hrun ltac:(now right)). exact H.
Qed.

Lemma import_groups_all_triangles_witness :
  exists o,
    objects square_world !! 2 = Some o /\
    obj_canvas o = 7 /\
    obj_geometry o = Compound_of [0; 1] /\
    obj_origin o = vec 0 0 0.
Proof.
  exact (proj2 (proj2 (import_groups_all_triangles sample_files vpython_renderer square_data 7
                         empty_world unit_square eq_refl eq_refl)) 2 square_world eq_refl).
Defined.

(** C8: when the parser fails, the import fails with the parser's own
    exception; the file was read once, and no triangle and no group was
    created. *)
Theorem import_propagates_parse_error
    (from_file : string -> Exn + Mesh) (R : Renderer) (meshdata : MeshData)
    (scene : Canvas) (w : World) (e : Exn) :
  from_file (meshdata_0 meshdata) = inl e ->
  import_object_from_numpy_stl from_file R meshdata scene w
  = (inl e, mk_world (objects w) (reads w ++ [meshdata_0 meshdata])).
Proof.
  intros Hparse. apply import_grouped_inl. now apply import_grouped_failed.
Qed.

Lemma import_propagates_parse_error_witness :
  import_object_from_numpy_stl sample_files vpython_renderer missing_data 7 square_world
  = (inl (mk_exn "FileNotFoundError" "missing.stl"),
     mk_world (objects square_world) (reads square_world ++ ["missing.stl"])).
Proof.
  exact (import_propagates_parse_error sample_files vpython_renderer missing_data 7
           square_world (mk_exn "FileNotFoundError" "missing.stl") eq_refl).
Defined.

(** C10: two descriptors that differ in nothing but the pose's z-axis are
    imported alike: same result, same scene. *)
Theorem import_ignores_pose_z
    (from_file : string -> Exn + Mesh) (R : Renderer) (d d' : MeshData)
    (scene : Canvas) (w : World) :
  meshdata_0 d = meshdata_0 d' ->
  meshdata_1 d = meshdata_1 d' ->
  pose_pos (meshdata_2 d) = pose_pos (meshdata_2 d') ->
  pose_x (meshdata_2 d) = pose_x (meshdata_2 d') ->
  pose_y (meshdata_2 d) = pose_y (meshdata_2 d') ->
  import_object_from_numpy_stl from_file R d scene w
  = import_object_from_numpy_stl from_file R d' scene w.
Proof.
  destruct d as [path scale [pos x y z]], d' as [path' scale' [pos' x' y' z']].
  cbn [meshdata_0 meshdata_1 meshdata_2 pose_pos pose_x pose_y].
  intros -> -> -> -> ->. reflexivity.
Qed.

Lemma import_ignores_pose_z_witness :
  import_object_from_numpy_stl sample_files vpython_renderer square_data 7 empty_world
  = import_object_from_numpy_stl sample_files vpython_renderer tilted_square_data 7 empty_world.
Proof.
  exact (import_ignores_pose_z sample_files vpython_renderer square_data tilted_square_data
           7 empty_world eq_refl eq_refl eq_refl eq_refl eq_refl).
Defined.

(** C6, as the code has it: on a mesh without faces the import creates no
    triangle and hands the empty list to the grouping constructor.  If the
    renderer refuses an empty list, the import fails with the renderer's
    exception and the scene holds no new object; if it accepts, the import
    returns a group without members at the pose's position, whose extents
    are those the renderer computes, scaled. *)
Theorem import_zero_faces
    (from_file : string -> Exn + Mesh) (R : Renderer) (meshdata : MeshData)
    (scene : Canvas) (w : World) (m : Mesh) :
  from_file (meshdata_0 meshdata) = inr m ->
  vectors m = [] ->
  normals m = [] ->
  match on_empty_group R with
  | Some e =>
      import_object_from_numpy_stl from_file R meshdata scene w
      = (inl e, mk_world (objects w) (reads w ++ [meshdata_0 meshdata]))
  | None =>
      exists o,
        import_object_from_numpy_stl from_file R meshdata scene w
        = (inr (length (objects w)),
           mk_world (objects w ++ [o]) (reads w ++ [meshdata_0 meshdata])) /\
        obj_geometry o = Compound_of [] /\
        obj_origin o = get_pose_pos (meshdata_2 meshdata) /\
        obj_size o
        = (let b := frame_size (compound_frame R (objects w) []
                                  (get_pose_pos (meshdata_2 meshdata))
                                  (get_pose_x_vec (meshdata_2 meshdata))
                                  (get_pose_y_vec (meshdata_2 meshdata))) in
           vec (vec_x b * at0 (meshdata_1 meshdata))%float
               (vec_y b * at1 (meshdata_1 meshdata))%float
               (vec_z b * at2 (meshdata_1 meshdata))%float)
  end.
Proof.
  intros Hparse Hv Hn.
  assert (well_formed m) as Hwf by (unfold well_formed; now rewrite Hv, Hn).
  destruct (on_empty_group R) as [e|] eqn:He.
  - now apply (import_rejected R from_file _ _ _ m).
  - rewrite (import_run R from_file _ _ _ _ Hparse Hwf) by now right.
    unfold world_with_triangles, hidden_triangles, mesh_triangles. rewrite Hv.
    cbn [zip_with length seq objects reads fmap list_fmap app].
    rewrite app_nil_r, Nat.add_0_r. eexists. split; [reflexivity |]. repeat split.
Qed.

Lemma import_zero_faces_witness :
  exists o,
    import_object_from_numpy_stl sample_files lenient_renderer empty_data 7 empty_world
    = (inr 0, mk_world [o] ["empty.stl"]) /\
    obj_geometry o = Compound_of [] /\
    obj_origin o = vec 0 0 0 /\
    obj_size o = vec (0 * 2) (0 * 1) (0 * 1).
Proof.
  exact (import_zero_faces sample_files lenient_renderer empty_data 7 empty_world
           empty_mesh eq_refl eq_refl eq_refl).
Defined.

(** C6, as the claim has it, fails: with vpython's grouping constructor the
    import of a well-formed mesh without faces raises, and creates
    nothing. *)
Lemma import_zero_faces_raises :
  import_object_from_numpy_stl sample_files vpython_renderer empty_data 7 empty_world
  = (inl (mk_exn "IndexError" "list index out of range"),
     mk_world [] ["empty.stl"]).
Proof. vm_compute. reflexivity. Qed.

(** ** Properties of the relocation *)

(** C3: the relocation moves the object it is given by exactly
    [required_obj_origin - current_obj_origin]: afterwards its position is
    the old position plus that difference. *)
Theorem set_stl_origin_translates
    (R : Renderer) (stl_obj : Handle) (current_obj_origin required_obj_origin : vector)
    (scene : Canvas) (w : World) (o : Object) :
  objects w !! stl_obj = Some o ->
  exists h w' o',
    set_stl_origin R stl_obj current_obj_origin required_obj_origin scene w = (inr h, w') /\
    objects w' !! stl_obj = Some o' /\
    obj_pos o' = vector_add (obj_pos o) (vector_sub required_obj_origin current_obj_origin).
Proof.
  intros Ho. pose proof (lookup_lt_Some _ _ _ Ho) as Hlt.
  rewrite (set_stl_origin_run R _ _ _ _ _ _ Ho). cbv zeta.
  do 3 eexists. split; [reflexivity |]. cbn [objects]. split.
  - rewrite lookup_app_l by (rewrite length_insert; exact Hlt).
    now apply list_lookup_insert_eq.
  - reflexivity.
Qed.

Lemma set_stl_origin_translates_witness :
  exists h w' o',
    set_stl_origin vpython_renderer 2 (vec 1 2 3) (vec 0 0 0) 7 square_world = (inr h, w') /\
    objects w' !! 2 = Some o' /\
    obj_pos o' = vector_add (vec 0 0 0) (vector_sub (vec 0 0 0) (vec 1 2 3)).
Proof.
  exact (set_stl_origin_translates vpython_renderer 2 (vec 1 2 3) (vec 0 0 0) 7
           square_world _ eq_refl).
Defined.

(** C4: the object the relocation returns is a group of the one object it
    was given, with its origin at (0, 0, 0).  The call names no axis: it
    passes the canonical x-axis under the keyword [vector], which the
    constructor keeps as an attribute of that name, so the axis of the group
    is the one the renderer gives a group made along the default axis, the
    canonical x-axis. *)
Theorem set_stl_origin_returns_group
    (R : Renderer) (stl_obj : Handle) (current_obj_origin required_obj_origin : vector)
    (scene : Canvas) (w : World) (o : Object) :
  objects w !! stl_obj = Some o ->
  exists h w' g,
    set_stl_origin R stl_obj current_obj_origin required_obj_origin scene w = (inr h, w') /\
    objects w' !! h = Some g /\
    obj_canvas g = scene /\
    obj_geometry g = Compound_of [stl_obj] /\
    obj_origin g = vec 0 0 0 /\
    obj_attrs g = [("vector", x_axis_vector)] /\
    obj_axis g
    = frame_axis
        (compound_frame R
           (<[stl_obj := moved (vector_sub required_obj_origin current_obj_origin) o]>
              (objects w))
           [stl_obj] (vec 0 0 0) x_axis_vector (vec 0 1 0)).
Proof.
  intros Ho.
  rewrite (set_stl_origin_run R _ _ _ _ _ _ Ho). cbv zeta.
  do 3 eexists. split; [reflexivity |]. cbn [objects]. split.
  - apply list_lookup_middle. now rewrite length_insert.
  - repeat split.
Qed.

Lemma set_stl_origin_returns_group_witness :
  exists h w' g,
    set_stl_origin vpython_renderer 2 (vec 1 2 3) (vec 0 0 0) 7 square_world = (inr h, w') /\
    objects w' !! h = Some g /\
    obj_canvas g = 7 /\
    obj_geometry g = Compound_of [2] /\
    obj_origin g = vec 0 0 0 /\
    obj_attrs g = [("vector", vec 1 0 0)] /\
    obj_axis g = vec 2 0 0.
Proof.
  exact (set_stl_origin_returns_group vpython_renderer 2 (vec 1 2 3) (vec 0 0 0) 7
           square_world _ eq_refl).
Defined.

(** With vpython's frame the axis of a group made along the x-axis is the
    x-axis times the group's length. *)
Lemma box_frame_along_x objs hs origin up :
  frame_axis (box_frame objs hs origin x_axis_vector up)
  = vector_rmul (vec_x (frame_size (box_frame objs hs origin x_axis_vector up)))
      x_axis_vector.
Proof. reflexivity. Qed.

(** C9: the relocation keeps the object it is given in the scene, nested in
    the returned group; it changes the object's position, and with it the
    origin of a group, which is that same vector, and clears its visibility
    flag; it leaves the object's canvas, geometry, axis, up vector, size and
    own attributes, and every other object of the scene, as they were. *)
Theorem set_stl_origin_frame
    (R : Renderer) (stl_obj : Handle) (current_obj_origin required_obj_origin : vector)
    (scene : Canvas) (w : World) (o : Object) :
  objects w !! stl_obj = Some o ->
  exists h w' o' g,
    set_stl_origin R stl_obj current_obj_origin required_obj_origin scene w = (inr h, w') /\
    objects w' !! stl_obj = Some o' /\
    o' = mk_object (obj_canvas o) (obj_geometry o)
           (vector_add (obj_pos o) (vector_sub required_obj_origin current_obj_origin))
           (obj_axis o) (obj_up o) (obj_size o) false (obj_attrs o) /\
    obj_origin o'
    = vector_add (obj_origin o) (vector_sub required_obj_origin current_obj_origin) /\
    (forall j, j <> stl_obj -> j <> h -> objects w' !! j = objects w !! j) /\
    h = length (objects w) /\
    length (objects w') = S (length (objects w)) /\
    objects w' !! h = Some g /\
    obj_geometry g = Compound_of [stl_obj] /\
    reads w' = reads w.
Proof.
  intros Ho. pose proof (lookup_lt_Some _ _ _ Ho) as Hlt.
  rewrite (set_stl_origin_run R _ _ _ _ _ _ Ho). cbv zeta.
  do 4 eexists. split; [reflexivity |]. cbn [objects reads].
  split; [| split; [reflexivity | split; [reflexivity |]]].
  { rewrite lookup_app_l by (rewrite length_insert; exact Hlt).
    now apply list_lookup_insert_eq. }
  split; [| split; [| split; [| split; [| split]]]].
  - intros j Hj Hh.
    destruct (decide (j < length (objects w))) as [Hlt'|Hge].
    + rewrite lookup_app_l by (rewrite length_insert; exact Hlt').
      now apply list_lookup_insert_ne.
    + rewrite !lookup_ge_None_2; [reflexivity | lia |].
      rewrite length_app, length_insert. cbn. lia.
  - reflexivity.
  - rewrite length_app, length_insert. cbn. lia.
  - apply list_lookup_middle. now rewrite length_insert.
  - reflexivity.
  - reflexivity.
Qed.

Lemma set_stl_origin_frame_witness :
  exists h w' o' g,
    set_stl_origin vpython_renderer 2 (vec 1 2 3) (vec 0 0 0) 7 square_world = (inr h, w') /\
    objects w' !! 2 = Some o' /\
    o' = mk_object 7 (Compound_of [0; 1])
           (vector_add (vec 0 0 0) (vector_sub (vec 0 0 0) (vec 1 2 3)))
           (vec 1 0 0) (vec 0 1 0) (vec 2 1 0) false [] /\
    obj_origin o' = vector_add (vec 0 0 0) (vector_sub (vec 0 0 0) (vec 1 2 3)) /\
    (forall j, j <> 2 -> j <> h -> objects w' !! j = objects square_world !! j) /\
    h = 3 /\
    length (objects w') = 4 /\
    objects w' !! h = Some g /\
    obj_geometry g = Compound_of [2] /\
    reads w' = ["square.stl"].
Proof.
  exact (set_stl_origin_frame vpython_renderer 2 (vec 1 2 3) (vec 0 0 0) 7
           square_world _ eq_refl).
Defined.

(** C5, as the code has it: relocating an object from A to B and then the
    returned group from B to C moves the object by B - A and the group
    around it by C - B; the second call does not touch the object's own
    position.  One relocation from A to C moves the object by C - A. *)
Theorem set_stl_origin_twice
    (R : Renderer) (stl_obj : Handle) (A B C : vector) (scene : Canvas)
    (w : World) (o : Object) :
  objects w !! stl_obj = Some o ->
  exists g1 w1 q g2 w2 g w3,
    set_stl_origin R stl_obj A B scene w = (inr g1, w1) /\
    position_of w1 g1 = Some q /\
    set_stl_origin R g1 B C scene w1 = (inr g2, w2) /\
    set_stl_origin R stl_obj A C scene w = (inr g, w3) /\
    position_of w2 stl_obj = Some (vector_add (obj_pos o) (vector_sub B A)) /\
    position_of w2 g1 = Some (vector_add q (vector_sub C B)) /\
    position_of w3 stl_obj = Some (vector_add (obj_pos o) (vector_sub C A)).
Proof.
  intros Ho. pose proof (lookup_lt_Some _ _ _ Ho) as Hlt.
  rewrite !(set_stl_origin_run R _ _ _ _ _ _ Ho). cbv zeta.
  set (objs1 := <[stl_obj := moved (vector_sub B A) o]> (objects w)).
  set (grp1 := group_object R objs1 [stl_obj] relocate_kwargs scene).
  assert (length objs1 = length (objects w)) as Hlen1 by apply length_insert.
  assert ((objs1 ++ [grp1]) !! length (objects w) = Some grp1) as Hg1
    by now apply list_lookup_middle.
  exists (length (objects w)), (mk_world (objs1 ++ [grp1]) (reads w)), (obj_pos grp1).
  rewrite (set_stl_origin_run R _ _ _ _ _ (mk_world (objs1 ++ [grp1]) (reads w)) Hg1).
  cbv zeta. cbn [objects reads].
  do 4 eexists. split; [reflexivity |].
  unfold position_of. cbn [objects].
  split; [now rewrite Hg1 |].
  split; [reflexivity |]. split; [reflexivity |]. cbn [objects]. split; [| split].
  - rewrite lookup_app_l by (rewrite length_insert, length_app; cbn; lia).
    rewrite list_lookup_insert_ne by lia.
    rewrite lookup_app_l by lia.
    unfold objs1. now rewrite list_lookup_insert_eq.
  - rewrite lookup_app_l by (rewrite length_insert, length_app; cbn; lia).
    rewrite list_lookup_insert_eq by (rewrite length_app; cbn; lia).
    reflexivity.
  - rewrite lookup_app_l by (rewrite length_insert; lia).
    now rewrite list_lookup_insert_eq.
Qed.

Lemma set_stl_origin_twice_witness :
  exists g1 w1 q g2 w2 g w3,
    set_stl_origin vpython_renderer 2 (vec 0 0 0) (vec 1 0 0) 7 square_world = (inr g1, w1) /\
    position_of w1 g1 = Some q /\
    set_stl_origin vpython_renderer g1 (vec 1 0 0) (vec 3 0 0) 7 w1 = (inr g2, w2) /\
    set_stl_origin vpython_renderer 2 (vec 0 0 0) (vec 3 0 0) 7 square_world = (inr g, w3) /\
    position_of w2 2 = Some (vector_add (vec 0 0 0) (vector_sub (vec 1 0 0) (vec 0 0 0))) /\
    position_of w2 g1 = Some (vector_add q (vector_sub (vec 3 0 0) (vec 1 0 0))) /\
    position_of w3 2 = Some (vector_add (vec 0 0 0) (vector_sub (vec 3 0 0) (vec 0 0 0))).
Proof.
  exact (set_stl_origin_twice vpython_renderer 2 (vec 0 0 0) (vec 1 0 0) (vec 3 0 0) 7
           square_world _ eq_refl).
Defined.

(** C5, as the claim has it, fails.  With A = (0.1, 0, 0), B = (0.3, 0, 0)
    and C = (0.7, 0, 0), the object at (0.5, 0, 0) does not end where one
    relocation from A to C puts it: its own position differs, and so does
    its position carried along with the displacement of the group around
    it. *)
Lemma set_stl_origin_not_additive :
  exists w1 w2 w3 p2 q1 q2 p3,
    set_stl_origin vpython_renderer 2 (vec 0.1 0 0) (vec 0.3 0 0) 7 offset_square_world
    = (inr 3, w1) /\
    set_stl_origin vpython_renderer 3 (vec 0.3 0 0) (vec 0.7 0 0) 7 w1 = (inr 4, w2) /\
    set_stl_origin vpython_renderer 2 (vec 0.1 0 0) (vec 0.7 0 0) 7 offset_square_world
    = (inr 3, w3) /\
    position_of w2 2 = Some p2 /\
    position_of w1 3 = Some q1 /\
    position_of w2 3 = Some q2 /\
    position_of w3 2 = Some p3 /\
    vector_eqb p2 p3 = false /\
    vector_eqb (vector_add p2 (vector_sub q2 q1)) p3 = false.
Proof.
  do 7 eexists.
  split; [vm_compute; reflexivity |].
  split; [vm_compute; reflexivity |].
  split; [vm_compute; reflexivity |].
  split; [vm_compute; reflexivity |].
  split; [vm_compute; reflexivity |].
  split; [vm_compute; reflexivity |].
  split; [vm_compute; reflexivity |].
  split; vm_compute; reflexivity.
Qed.

(** ** Further properties: what the import leaves alone *)

(** One pass of the loop body either appends the face's triangle or raises
    and leaves the scene as it was. *)
Lemma face_body_outcome m scene face acc w :
  (exists pts nrm,
     face_body m scene face acc w
     = (inr (acc ++ [length (objects w)]),
        mk_world (objects w ++ [face_object scene pts nrm]) (reads w)))
  \/ (exists e, face_body m scene face acc w = (inl e, w)).
Proof.
  destruct (vectors m !! face) as [pts|] eqn:Hv.
  - destruct (normals m !! face) as [nrm|] eqn:Hn.
    + left. exists pts, nrm. now apply face_body_run.
    + right. eexists. unfold face_body.
      do 3 (erewrite bind_inr by (apply getitem_Some; exact Hv)).
      apply bind_inl. unfold getitem. rewrite Hn. reflexivity.
  - right. eexists. unfold face_body.
    apply bind_inl. unfold getitem. rewrite Hv. reflexivity.
Qed.

Lemma members_of_face_object scene pts nrm : members_of (face_object scene pts nrm) = [].
Proof. reflexivity. Qed.

Lemma tail_ok_nil n : tail_ok n [].
Proof. intros i o H. rewrite lookup_nil in H. discriminate. Qed.

Lemma tail_ok_cons n o tail :
  Forall (fun h => h < n) (members_of o) -> tail_ok (S n) tail -> tail_ok n (o :: tail).
Proof.
  intros Ho Ht [|i] o' H; cbn in H.
  - inversion H; subst o'. now rewrite Nat.add_0_r.
  - replace (n + S i) with (S n + i) by lia. now apply Ht.
Qed.

Lemma tail_ok_snoc n tail o :
  tail_ok n tail -> Forall (fun h => h < n + length tail) (members_of o) ->
  tail_ok n (tail ++ [o]).
Proof.
  intros Ht Ho i o' H. apply lookup_snoc_Some in H as [[Hlt H]|[-> ->]].
  - now apply Ht.
  - exact Ho.
Qed.

Lemma tail_ok_insert n tail i o o' :
  tail_ok n tail -> tail !! i = Some o -> members_of o' = members_of o ->
  tail_ok n (<[i := o']> tail).
Proof.
  intros Ht Hi Hm j oj H.
  apply list_lookup_insert_Some in H as [(-> & -> & Hlt)|[Hne H]].
  - rewrite Hm. now apply Ht.
  - now apply Ht.
Qed.

Lemma tail_ok_hide_all n hs tail : tail_ok n tail -> tail_ok n (hide_all hs tail).
Proof.
  intros Ht j o' H. rewrite lookup_hide_all in H.
  case_decide; [| now apply Ht].
  destruct (tail !! j) as [o|] eqn:Ho; [| discriminate].
  cbn in H. inversion H; subst o'.
  change (members_of (set_visible false o)) with (members_of o). now apply Ht.
Qed.

Lemma scene_ok_tail objs : scene_ok objs <-> tail_ok 0 objs.
Proof. reflexivity. Qed.

Lemma scene_ok_app objs tail :
  scene_ok objs -> tail_ok (length objs) tail -> scene_ok (objs ++ tail).
Proof.
  intros Hs Ht i o H. apply lookup_app_Some in H as [H|[Hge H]].
  - now apply Hs.
  - apply Ht in H. eapply Forall_impl; [exact H |]. cbn. intros h Hh. lia.
Qed.

(** The loop over any list of face indices, on any mesh: it only appends
    triangles, and the handles it adds to its list are handles of the
    objects it appends. *)
Lemma for_range_faces_outcome m scene n0 idx : forall acc w,
  n0 <= length (objects w) ->
  Forall (fun h => n0 <= h < length (objects w)) acc ->
  exists tail,
    objects (snd (for_range idx (face_body m scene) acc w)) = objects w ++ tail /\
    reads (snd (for_range idx (face_body m scene) acc w)) = reads w /\
    tail_ok (length (objects w)) tail /\
    forall hs, fst (for_range idx (face_body m scene) acc w) = inr hs ->
      Forall (fun h => n0 <= h < length (objects w) + length tail) hs.
Proof.
  induction idx as [|face idx IH]; intros acc w Hn0 Hacc.
  - exists []. cbn. rewrite app_nil_r, Nat.add_0_r.
    repeat split; [apply tail_ok_nil |]. intros hs Hhs. inversion Hhs; subst hs. exact Hacc.
  - cbn [for_range].
    destruct (face_body_outcome m scene face acc w) as [(pts & nrm & Hrun)|[e Hfail]].
    + rewrite (bind_inr _ _ _ _ _ Hrun).
      set (w1 := mk_world (objects w ++ [face_object scene pts nrm]) (reads w)).
      assert (length (objects w1) = S (length (objects w))) as Hlen
        by (cbn; rewrite length_app; cbn; lia).
      destruct (IH (acc ++ [length (objects w)]) w1) as (tail & Hobjs & Hreads & Hok & Hhs).
      { lia. }
      { rewrite Hlen. apply Forall_app. split.
        - eapply Forall_impl; [exact Hacc |]. cbn. intros h Hh. lia.
        - repeat constructor; lia. }
      exists (face_object scene pts nrm :: tail).
      rewrite Hobjs, Hreads. cbn [objects reads w1]. rewrite <- app_assoc. cbn [app].
      repeat split.
      * apply tail_ok_cons; [rewrite members_of_face_object; constructor |].
        now rewrite <- Hlen.
      * intros hs H. apply Hhs in H. rewrite Hlen in H. cbn [length].
        eapply Forall_impl; [exact H |]. cbn. intros h Hh. lia.
    + rewrite (bind_inl _ _ _ _ _ Hfail). exists []. cbn. rewrite app_nil_r.
      repeat split; [apply tail_ok_nil |]. intros hs H. discriminate H.
Qed.

Lemma import_grouped_loop from_file R meshdata scene w m :
  from_file (meshdata_0 meshdata) = inr m ->
  import_grouped from_file R meshdata scene w
  = bind (for_range (seq 0 (length (vectors m))) (face_body m scene) [])
      (fun triangles => compound R triangles (import_kwargs meshdata) scene)
      (mk_world (objects w) (reads w ++ [meshdata_0 meshdata])).
Proof.
  intros Hparse. unfold import_grouped.
  erewrite bind_inr; [reflexivity |].
  unfold Mesh_from_file. now rewrite Hparse.
Qed.

(** Every run of the import, whatever the parser returns: the scene it
    leaves is the scene it found followed by new objects, each of which
    groups earlier objects only, and the read log has one more entry. *)
Lemma import_outcome from_file R meshdata scene w :
  exists tail,
    objects (snd (import_object_from_numpy_stl from_file R meshdata scene w))
    = objects w ++ tail /\
    reads (snd (import_object_from_numpy_stl from_file R meshdata scene w))
    = reads w ++ [meshdata_0 meshdata] /\
    tail_ok (length (objects w)) tail.
Proof.
  destruct (from_file (meshdata_0 meshdata)) as [e|m] eqn:Hparse.
  { rewrite (import_grouped_inl _ _ _ _ _ _ _
               (import_grouped_failed from_file R _ scene w _ Hparse)).
    exists []. cbn. rewrite app_nil_r. repeat split. apply tail_ok_nil. }
  pose proof (import_grouped_loop from_file R meshdata scene w m Hparse) as Hg.
  set (w0 := mk_world (objects w) (reads w ++ [meshdata_0 meshdata])) in *.
  destruct (for_range_faces_outcome m scene (length (objects w))
              (seq 0 (length (vectors m))) [] w0)
    as (tail & Hobjs & Hreads & Hok & Hhs); [reflexivity | constructor |].
  destruct (for_range (seq 0 (length (vectors m))) (face_body m scene) [] w0)
    as [[e|hs] w1] eqn:Hloop; cbn [fst snd] in *.
  { rewrite (bind_inl _ _ _ _ _ Hloop) in Hg.
    rewrite (import_grouped_inl _ _ _ _ _ _ _ Hg). cbn [snd].
    exists tail. now rewrite Hobjs, Hreads. }
  rewrite (bind_inr _ _ _ _ _ Hloop) in Hg.
  destruct (compound R hs (import_kwargs meshdata) scene w1) as [[e|h] w2] eqn:Hc.
  { apply compound_inl in Hc as (-> & _ & _).
    rewrite (import_grouped_inl _ _ _ _ _ _ _ Hg). cbn [snd].
    exists tail. now rewrite Hobjs, Hreads. }
  apply compound_inr in Hc as [-> ->].
  set (g := group_object R (objects w1) hs (import_kwargs meshdata) scene) in *.
  specialize (Hhs hs eq_refl). cbn [objects w0] in Hhs, Hobjs, Hok.
  assert (hide_all hs (objects w1)
          = objects w ++ hide_all ((fun h => h - length (objects w)) <$> hs) tail) as Hhide.
  { rewrite Hobjs. apply hide_all_app_ge.
    eapply Forall_impl; [exact Hhs |]. cbn. intros h Hh. lia. }
  set (tail' := hide_all ((fun h => h - length (objects w)) <$> hs) tail) in *.
  assert (length (objects w ++ tail') = length (objects w1)) as Hlen
    by (rewrite <- Hhide; apply length_hide_all).
  unfold import_object_from_numpy_stl.
  rewrite (bind_inr _ _ _ _ _ Hg).
  erewrite bind_inr;
    [| apply rescale_run; cbn [objects]; rewrite Hhide;
       apply list_lookup_middle; exact (eq_sym Hlen)].
  cbn [snd objects reads]. unfold ret. cbn [snd objects reads].
  rewrite Hhide, insert_app_r_alt by lia. rewrite Hlen, Nat.sub_diag.
  cbn [insert list_insert].
  exists (tail' ++ [scaled R (meshdata_1 meshdata) g]).
  rewrite Hreads, <- app_assoc. repeat split.
  apply tail_ok_snoc; [now apply tail_ok_hide_all |].
  change (members_of (scaled R (meshdata_1 meshdata) g)) with hs.
  unfold tail'. rewrite length_hide_all.
  eapply Forall_impl; [exact Hhs |]. cbn. intros h Hh. lia.
Qed.

(** X1: in every run, whatever the parser returns and whether or not the
    import succeeds, the parser is asked for the descriptor's file exactly
    once and for no other file. *)
Theorem import_reads_once
    (from_file : string -> Exn + Mesh) (R : Renderer) (meshdata : MeshData)
    (scene : Canvas) (w : World) :
  reads (snd (import_object_from_numpy_stl from_file R meshdata scene w))
  = reads w ++ [meshdata_0 meshdata].
Proof.
  destruct (import_outcome from_file R meshdata scene w) as (tail & _ & H & _). exact H.
Qed.

(** X2: in every run the import only adds objects: each object that was in
    the scene is still there, under its handle and unchanged. *)
Theorem import_keeps_scene
    (from_file : string -> Exn + Mesh) (R : Renderer) (meshdata : MeshData)
    (scene : Canvas) (w : World) :
  length (objects w)
  <= length (objects (snd (import_object_from_numpy_stl from_file R meshdata scene w))) /\
  forall j o,
    objects w !! j = Some o ->
    objects (snd (import_object_from_numpy_stl from_file R meshdata scene w)) !! j = Some o.
Proof.
  destruct (import_outcome from_file R meshdata scene w) as (tail & -> & _ & _). split.
  - rewrite length_app. lia.
  - intros j o H. now apply lookup_app_l_Some.
Qed.

(** X3: the import keeps a well-formed scene well-formed, in every run:
    afterwards, too, every group refers to objects created before it. *)
Theorem import_preserves_scene_ok
    (from_file : string -> Exn + Mesh) (R : Renderer) (meshdata : MeshData)
    (scene : Canvas) (w : World) :
  scene_ok (objects w) ->
  scene_ok (objects (snd (import_object_from_numpy_stl from_file R meshdata scene w))).
Proof.
  intros Hs.
  destruct (import_outcome from_file R meshdata scene w) as (tail & -> & _ & Hok).
  now apply scene_ok_app.
Qed.

Lemma import_preserves_scene_ok_witness :
  scene_ok
    (objects (snd (import_object_from_numpy_stl sample_files vpython_renderer
                     square_data 7 square_world))).
Proof.
  exact (import_preserves_scene_ok sample_files vpython_renderer square_data 7 square_world
           (import_preserves_scene_ok sample_files vpython_renderer square_data 7
              empty_world (tail_ok_nil 0))).
Defined.

(** X4: when the parser returns well-formed meshes only, an import that
    fails has created nothing; and it fails for one of two reasons: the
    parser raised, or the mesh has no face and the renderer refused the
    empty group.  In both cases the exception is the collaborator's own. *)
Theorem import_failure_is_atomic
    (from_file : string -> Exn + Mesh) (R : Renderer) (meshdata : MeshData)
    (scene : Canvas) (w : World) (e : Exn) (w' : World) :
  (forall m, from_file (meshdata_0 meshdata) = inr m -> well_formed m) ->
  import_object_from_numpy_stl from_file R meshdata scene w = (inl e, w') ->
  objects w' = objects w /\
  (from_file (meshdata_0 meshdata) = inl e \/
   exists m, from_file (meshdata_0 meshdata) = inr m /\ vectors m = [] /\
             on_empty_group R = Some e).
Proof.
  intros Hwf H.
  destruct (from_file (meshdata_0 meshdata)) as [e0|m] eqn:Hparse.
  - rewrite (import_grouped_inl _ _ _ _ _ _ _
               (import_grouped_failed from_file R _ scene w _ Hparse)) in H.
    inversion H; subst. split; [reflexivity | now left].
  - specialize (Hwf m eq_refl).
    destruct (on_empty_group R) as [e1|] eqn:He; [destruct (vectors m) as [|pts vs] eqn:Hv |].
    + rewrite (import_rejected R from_file _ _ _ _ e1 Hparse Hwf Hv He) in H.
      inversion H; subst. split; [reflexivity |]. right. exists m. now rewrite Hv.
    + rewrite (import_run R from_file _ _ _ _ Hparse Hwf) in H by (left; congruence).
      discriminate H.
    + rewrite (import_run R from_file _ _ _ _ Hparse Hwf) in H by now right.
      discriminate H.
Qed.

Lemma import_failure_is_atomic_witness :
  objects square_world = objects square_world /\
  (sample_files "empty.stl"
   = inl (mk_exn "IndexError" "list index out of range") \/
   exists m, sample_files "empty.stl" = inr m /\ vectors m = [] /\
             on_empty_group vpython_renderer
             = Some (mk_exn "IndexError" "list index out of range")).
Proof.
  apply (import_failure_is_atomic sample_files vpython_renderer empty_data 7 square_world
           (mk_exn "IndexError" "list index out of range")
           (mk_world (objects square_world) (reads square_world ++ ["empty.stl"]))).
  - intros m H. vm_compute in H. inversion H. reflexivity.
  - vm_compute. reflexivity.
Defined.

(** X5: a successful import adds exactly F + 1 objects to the scene and
    returns the handle of the last one.  The members of that group are the
    F handles before it: each occurs once, each is a triangle this call
    created on the given canvas, and no older object of the scene is among
    them. *)
Theorem import_result_shape
    (from_file : string -> Exn + Mesh) (R : Renderer) (meshdata : MeshData)
    (scene : Canvas) (w : World) (m : Mesh) :
  from_file (meshdata_0 meshdata) = inr m ->
  well_formed m ->
  vectors m <> [] \/ on_empty_group R = None ->
  exists h w' g,
    import_object_from_numpy_stl from_file R meshdata scene w = (inr h, w') /\
    h = length (objects w) + length (vectors m) /\
    length (objects w') = S h /\
    objects w' !! h = Some g /\
    NoDup (members_of g) /\
    (forall j, j ∈ members_of g <-> length (objects w) <= j < h) /\
    (forall j, j ∈ members_of g ->
       exists t, objects w' !! j = Some t /\ is_triangle t = true /\ obj_canvas t = scene).
Proof.
  intros Hparse Hwf Hok.
  rewrite (import_run R from_file _ _ _ _ Hparse Hwf Hok). cbv zeta.
  pose proof (length_hidden_triangles scene m Hwf) as Hlen.
  do 3 eexists. split; [reflexivity |]. cbn [objects].
  split; [reflexivity |].
  split; [rewrite !length_app, Hlen; cbn [length]; lia |].
  split; [rewrite app_assoc; apply list_lookup_middle; now rewrite length_app, Hlen |].
  change (members_of (scaled _ _ _)) with (seq (length (objects w)) (length (vectors m))).
  split; [apply NoDup_seq |].
  split; [intros j; apply elem_of_seq |].
  intros j Hj. apply elem_of_seq in Hj.
  assert (is_Some (mesh_triangles scene m !! (j - length (objects w)))) as [t Ht].
  { apply lookup_lt_is_Some. rewrite length_mesh_triangles by exact Hwf. lia. }
  exists (set_visible false t). split.
  - rewrite lookup_app_r by lia. rewrite lookup_app_l by lia.
    unfold hidden_triangles. now rewrite list_lookup_fmap, Ht.
  - unfold mesh_triangles in Ht. apply lookup_zip_with_Some in Ht as (pts & nrm & -> & _ & _).
    split; reflexivity.
Qed.

Lemma import_result_shape_witness :
  exists h w' g,
    import_object_from_numpy_stl sample_files vpython_renderer square_data 7 square_world
    = (inr h, w') /\
    h = 3 + 2 /\
    length (objects w') = S h /\
    objects w' !! h = Some g /\
    NoDup (members_of g) /\
    (forall j, j ∈ members_of g <-> 3 <= j < h) /\
    (forall j, j ∈ members_of g ->
       exists t, objects w' !! j = Some t /\ is_triangle t = true /\ obj_canvas t = 7).
Proof.
  apply (import_result_shape sample_files vpython_renderer square_data 7 square_world
           unit_square).
  - reflexivity.
  - reflexivity.
  - left. discriminate.
Defined.

(** ** Further properties: relocation and the scene *)

(** X6: the relocation of an object of a well-formed scene leaves the scene
    well-formed: the returned group refers to an object created before it,
    and no other group's members change. *)
Theorem set_stl_origin_preserves_scene_ok
    (R : Renderer) (stl_obj : Handle) (current_obj_origin required_obj_origin : vector)
    (scene : Canvas) (w : World) (o : Object) :
  objects w !! stl_obj = Some o ->
  scene_ok (objects w) ->
  scene_ok (objects (snd (set_stl_origin R stl_obj current_obj_origin required_obj_origin
                            scene w))).
Proof.
  intros Ho Hs. pose proof (lookup_lt_Some _ _ _ Ho) as Hlt.
  rewrite (set_stl_origin_run R _ _ _ _ _ _ Ho). cbv zeta. cbn [snd objects].
  apply scene_ok_app.
  - apply scene_ok_tail. eapply tail_ok_insert; [apply scene_ok_tail; exact Hs | exact Ho |].
    reflexivity.
  - rewrite length_insert. apply tail_ok_cons; [| apply tail_ok_nil].
    repeat constructor. exact Hlt.
Qed.

Lemma set_stl_origin_preserves_scene_ok_witness :
  scene_ok
    (objects (snd (set_stl_origin vpython_renderer 2 (vec 1 2 3) (vec 0 0 0) 7 square_world))).
Proof.
  exact (set_stl_origin_preserves_scene_ok vpython_renderer 2 (vec 1 2 3) (vec 0 0 0) 7
           square_world _ eq_refl
           (import_preserves_scene_ok sample_files vpython_renderer square_data 7
              empty_world (tail_ok_nil 0))).
Defined.

(** X7: relocating the group an import has just returned succeeds, and it
    changes nothing of what the import created before the group: the
    triangles keep their vertices, so the translation is carried by the
    group's position alone.  The group itself is moved by
    [required_obj_origin - current_obj_origin] and becomes the one member of
    the group returned. *)
Theorem relocate_after_import
    (from_file : string -> Exn + Mesh) (R : Renderer) (meshdata : MeshData)
    (scene : Canvas) (w : World) (m : Mesh)
    (current_obj_origin required_obj_origin : vector) :
  from_file (meshdata_0 meshdata) = inr m ->
  well_formed m ->
  vectors m <> [] \/ on_empty_group R = None ->
  exists h w1 q g w2 grp,
    import_object_from_numpy_stl from_file R meshdata scene w = (inr h, w1) /\
    position_of w1 h = Some q /\
    set_stl_origin R h current_obj_origin required_obj_origin scene w1 = (inr g, w2) /\
    (forall j, j < h -> objects w2 !! j = objects w1 !! j) /\
    position_of w2 h
    = Some (vector_add q (vector_sub required_obj_origin current_obj_origin)) /\
    objects w2 !! g = Some grp /\
    members_of grp = [h] /\
    count_triangles (objects w2) = count_triangles (objects w) + length (vectors m).
Proof.
  intros Hparse Hwf Hok.
  rewrite (import_run R from_file _ _ _ _ Hparse Hwf Hok). cbv zeta.
  rewrite app_assoc.
  set (objs1 := objects w ++ hidden_triangles scene m).
  set (grp0 := scaled R (meshdata_1 meshdata) _).
  set (rd := reads (world_with_triangles meshdata scene m w)).
  assert (length objs1 = length (objects w) + length (vectors m)) as Hlen.
  { unfold objs1. now rewrite length_app, length_hidden_triangles. }
  assert ((objs1 ++ [grp0]) !! (length (objects w) + length (vectors m)) = Some grp0)
    as Hg by now apply list_lookup_middle.
  exists (length (objects w) + length (vectors m)),
         (mk_world (objs1 ++ [grp0]) rd), (obj_pos grp0).
  rewrite (set_stl_origin_run R _ _ _ _ _ (mk_world (objs1 ++ [grp0]) rd) Hg).
  cbv zeta. cbn [objects reads].
  do 3 eexists. split; [reflexivity |].
  unfold position_of. cbn [objects].
  split; [now rewrite Hg |]. split; [reflexivity |].
  rewrite <- Hlen. rewrite insert_app_r_alt by lia. rewrite Nat.sub_diag.
  cbn [insert list_insert]. rewrite <- app_assoc. cbn [app].
  split; [| split; [| split; [| split]]]; cbn [objects].
  - intros j Hj. now rewrite !lookup_app_l by lia.
  - rewrite list_lookup_middle by reflexivity. reflexivity.
  - rewrite length_app. cbn [length].
    rewrite lookup_app_r by lia.
    replace (length objs1 + 1 - length objs1) with 1 by lia.
    reflexivity.
  - reflexivity.
  - unfold objs1, hidden_triangles.
    rewrite !count_triangles_app, count_triangles_hidden, count_mesh_triangles,
      length_mesh_triangles by exact Hwf.
    match goal with
    | |- context [count_triangles [?a; ?b]] => change (count_triangles [a; b]) with 0
    end.
    lia.
Qed.

Lemma relocate_after_import_witness :
  exists h w1 q g w2 grp,
    import_object_from_numpy_stl sample_files vpython_renderer square_data 7 empty_world
    = (inr h, w1) /\
    position_of w1 h = Some q /\
    set_stl_origin vpython_renderer h (vec 1 2 3) (vec 0 0 0) 7 w1 = (inr g, w2) /\
    (forall j, j < h -> objects w2 !! j = objects w1 !! j) /\
    position_of w2 h = Some (vector_add q (vector_sub (vec 0 0 0) (vec 1 2 3))) /\
    objects w2 !! g = Some grp /\
    members_of grp = [h] /\
    count_triangles (objects w2) = 0 + 2.
Proof.
  apply (relocate_after_import sample_files vpython_renderer square_data 7 empty_world
           unit_square (vec 1 2 3) (vec 0 0 0)).
  - reflexivity.
  - reflexivity.
  - left. discriminate.
Defined.
